(** * Fuser-method mappings: a shallow embedding of [fuser_method_mappings.py]

    The Python file is a registry mapping patterns of layer classes to the
    functions that fuse modules of those classes.  The embedding follows the
    type annotations of the source: a module instance is a record of the
    attributes the file reads, a dictionary is a finite map, a fuser method is
    a function, and a raised exception is an error result. *)

From stdpp Require Import base option list strings countable gmap fin_maps.
From Stdlib Require Import ZArith Bool.

Local Open Scope Z_scope.
Set Warnings "-register-all".

(** ** Exceptions and results *)

Inductive Exn :=
  | AssertionError
  | NotImplementedError
  | AttributeError
  | PyException.

Inductive result (A : Type) :=
  | Ok (a : A)
  | Raise (e : Exn).
Arguments Ok {A} a.
Arguments Raise {A} e.

#[global] Instance result_ret : MRet result := fun A a => Ok a.
#[global] Instance result_bind : MBind result :=
  fun A B f r => match r with Ok a => f a | Raise e => Raise e end.

Definition raises {A} (r : result A) : Prop := exists e, r = Raise e.

(** [assert b] of Python. *)
Definition py_assert (b : bool) : result unit :=
  if b then Ok tt else Raise AssertionError.

(** ** Classes of [torch.nn] and [torch.nn.intrinsic] *)

Inductive ModuleType :=
  | Conv1d | Conv2d | Conv3d
  | BatchNorm1d | BatchNorm2d | BatchNorm3d
  | ReLU | Linear
  | ConvTranspose1d | ConvTranspose2d | ConvTranspose3d
  | ConvBn1d | ConvBn2d | ConvBn3d
  | ConvBnReLU1d | ConvBnReLU2d | ConvBnReLU3d
  | ConvReLU1d | ConvReLU2d | ConvReLU3d
  | LinearReLU | BNReLU2d | BNReLU3d
  | OtherClass (name : string).

#[global] Instance ModuleType_eq_dec : EqDecision ModuleType.
Proof. solve_decision. Defined.

Definition ModuleType_code (t : ModuleType) : nat + string :=
  match t with
  | Conv1d => inl 0%nat | Conv2d => inl 1%nat | Conv3d => inl 2%nat
  | BatchNorm1d => inl 3%nat | BatchNorm2d => inl 4%nat | BatchNorm3d => inl 5%nat
  | ReLU => inl 6%nat | Linear => inl 7%nat
  | ConvTranspose1d => inl 8%nat | ConvTranspose2d => inl 9%nat
  | ConvTranspose3d => inl 10%nat
  | ConvBn1d => inl 11%nat | ConvBn2d => inl 12%nat | ConvBn3d => inl 13%nat
  | ConvBnReLU1d => inl 14%nat | ConvBnReLU2d => inl 15%nat
  | ConvBnReLU3d => inl 16%nat
  | ConvReLU1d => inl 17%nat | ConvReLU2d => inl 18%nat | ConvReLU3d => inl 19%nat
  | LinearReLU => inl 20%nat | BNReLU2d => inl 21%nat | BNReLU3d => inl 22%nat
  | OtherClass s => inr s
  end.

Definition ModuleType_of_code (c : nat + string) : ModuleType :=
  match c with
  | inl 0%nat => Conv1d | inl 1%nat => Conv2d | inl 2%nat => Conv3d
  | inl 3%nat => BatchNorm1d | inl 4%nat => BatchNorm2d | inl 5%nat => BatchNorm3d
  | inl 6%nat => ReLU | inl 7%nat => Linear
  | inl 8%nat => ConvTranspose1d | inl 9%nat => ConvTranspose2d
  | inl 10%nat => ConvTranspose3d
  | inl 11%nat => ConvBn1d | inl 12%nat => ConvBn2d | inl 13%nat => ConvBn3d
  | inl 14%nat => ConvBnReLU1d | inl 15%nat => ConvBnReLU2d
  | inl 16%nat => ConvBnReLU3d
  | inl 17%nat => ConvReLU1d | inl 18%nat => ConvReLU2d | inl 19%nat => ConvReLU3d
  | inl 20%nat => LinearReLU | inl 21%nat => BNReLU2d | inl 22%nat => BNReLU3d
  | inl _ => OtherClass EmptyString
  | inr s => OtherClass s
  end.

Lemma ModuleType_code_inv t : ModuleType_of_code (ModuleType_code t) = t.
Proof. by destruct t. Qed.

#[global] Instance ModuleType_countable : Countable ModuleType :=
  inj_countable' ModuleType_code ModuleType_of_code ModuleType_code_inv.

(** ** Patterns: the keys of the two tables

    A key is a class or a tuple of keys: [(nn.Conv1d, nn.BatchNorm1d)] in the
    list table, [(nn.ReLU, (nn.BatchNorm1d, nn.Conv1d))] in the pattern table. *)

Inductive Pattern :=
  | PClass (c : ModuleType)
  | PTuple (ps : list Pattern).

Fixpoint Pattern_to_tree (p : Pattern) : gen_tree ModuleType :=
  match p with
  | PClass c => GenLeaf c
  | PTuple ps => GenNode 0 (map Pattern_to_tree ps)
  end.

Fixpoint Pattern_of_tree (t : gen_tree ModuleType) : Pattern :=
  match t with
  | GenLeaf c => PClass c
  | GenNode _ ts => PTuple (map Pattern_of_tree ts)
  end.

Lemma Pattern_tree_inv : forall p, Pattern_of_tree (Pattern_to_tree p) = p.
Proof.
  fix IH 1. intros [c|ps]; simpl; [reflexivity|].
  f_equal. induction ps as [|q qs IHqs]; simpl; [reflexivity|].
  by rewrite IH, IHqs.
Qed.

#[global] Instance Pattern_eq_dec : EqDecision Pattern.
Proof.
  intros p q. destruct (decide (Pattern_to_tree p = Pattern_to_tree q)) as [E|E].
  - left. rewrite <- (Pattern_tree_inv p), <- (Pattern_tree_inv q). by rewrite E.
  - right. intros ->. by apply E.
Defined.

#[global] Instance Pattern_countable : Countable Pattern :=
  inj_countable' Pattern_to_tree Pattern_of_tree Pattern_tree_inv.

(** ** Module instances

    An [nn.Module] instance, reduced to what this file reads of it: its class
    ([type(m)]), its [training] flag, which every module has, and the
    attributes a class may or may not define.  Reading an attribute the
    instance does not have raises [AttributeError].  [submodules] are the
    children of a container such as [nni.ConvReLU2d]. *)

Inductive NNModule := mkModule {
  mtype : ModuleType;
  training : bool;
  out_channels : option Z;
  num_features : option Z;
  affine : option bool;
  track_running_stats : option bool;
  submodules : list NNModule
}.

Definition getattr {A} (field : NNModule -> option A) (m : NNModule) : result A :=
  match field m with
  | Some v => Ok v
  | None => Raise AttributeError
  end.

(** ** The framework

    The routines of [torch] the file delegates to.  They are not part of the
    repository: the functions below are parametric in them.
    - [fuse_conv_bn_eval conv bn transpose] is
      [nn.utils.fusion.fuse_conv_bn_eval(conv, bn, transpose=False)];
    - [fuse_linear_bn_eval linear bn] is
      [nn.utils.fusion.fuse_linear_bn_eval(linear, bn)];
    - [instantiate cls ms] is the call [cls(m1, ..., mn)] of a class of
      [torch.nn.intrinsic] on modules. *)

Class Framework := {
  fuse_conv_bn_eval : NNModule -> NNModule -> bool -> result NNModule;
  fuse_linear_bn_eval : NNModule -> NNModule -> result NNModule;
  instantiate : ModuleType -> list NNModule -> result NNModule
}.

(** A sequential class for two modules, as a callable. *)
Definition nni `{Framework} (cls : ModuleType) (m1 m2 : NNModule) : result NNModule :=
  instantiate cls [m1; m2].

(** ** Fusion functions *)

Section Fusers.
Context `{F : Framework}.

(** The dictionary [fused_module_class_map] of [fuse_conv_bn], read with
    [.get(type(conv), None)]. *)
Definition fused_module_class_map (t : ModuleType) : option ModuleType :=
  match t with
  | Conv1d => Some ConvBn1d
  | Conv2d => Some ConvBn2d
  | Conv3d => Some ConvBn3d
  | _ => None
  end.

Definition fuse_conv_bn (is_qat : bool) (conv bn : NNModule) : result NNModule :=
  py_assert (eqb (training conv) (training bn)) ;;
  if is_qat then
    py_assert (training conv) ;;
    nf ← getattr num_features bn;
    oc ← getattr out_channels conv;
    py_assert (bool_decide (nf = oc)) ;;
    a ← getattr affine bn;
    py_assert a ;;
    t ← getattr track_running_stats bn;
    py_assert t ;;
    match fused_module_class_map (mtype conv) with
    | Some fused_module_class => instantiate fused_module_class [conv; bn]
    | None => Raise NotImplementedError
    end
  else
    fuse_conv_bn_eval conv bn false.

Definition map_to_fused_module_train (t : ModuleType) : option ModuleType :=
  match t with
  | Conv1d => Some ConvBnReLU1d
  | Conv2d => Some ConvBnReLU2d
  | Conv3d => Some ConvBnReLU3d
  | _ => None
  end.

Definition map_to_fused_module_eval (t : ModuleType) : option ModuleType :=
  match t with
  | Conv1d => Some ConvReLU1d
  | Conv2d => Some ConvReLU2d
  | Conv3d => Some ConvReLU3d
  | _ => None
  end.

(** [conv.training == bn.training == relu.training] is a chained comparison:
    the conjunction of the two equalities. *)
Definition fuse_conv_bn_relu (is_qat : bool) (conv bn relu : NNModule)
  : result NNModule :=
  py_assert (eqb (training conv) (training bn)
             && eqb (training bn) (training relu)) ;;
  if is_qat then
    py_assert (training conv) ;;
    nf ← getattr num_features bn;
    oc ← getattr out_channels conv;
    py_assert (bool_decide (nf = oc)) ;;
    a ← getattr affine bn;
    py_assert a ;;
    t ← getattr track_running_stats bn;
    py_assert t ;;
    match map_to_fused_module_train (mtype conv) with
    | Some fused_module => instantiate fused_module [conv; bn; relu]
    | None => Raise NotImplementedError
    end
  else
    match map_to_fused_module_eval (mtype conv) with
    | Some fused_module =>
        fused_conv ← fuse_conv_bn_eval conv bn false;
        instantiate fused_module [fused_conv; relu]
    | None => Raise NotImplementedError
    end.

Definition fuse_linear_bn (is_qat : bool) (linear bn : NNModule) : result NNModule :=
  py_assert (eqb (training linear) (training bn)) ;;
  if is_qat then
    py_assert (training linear) ;;
    Raise PyException
  else
    fuse_linear_bn_eval linear bn.

Definition fuse_convtranspose_bn (is_qat : bool) (convt bn : NNModule)
  : result NNModule :=
  py_assert (eqb (training convt) (training bn)) ;;
  if is_qat then
    py_assert (training convt) ;;
    Raise PyException
  else
    fuse_conv_bn_eval convt bn true.

End Fusers.

(** ** Wrappers *)

Definition sequential_wrapper2 {M R : Type} (sequential : M -> M -> R)
  : bool -> M -> M -> R :=
  fun is_qat m1 m2 => sequential m1 m2.

Definition reverse_sequential_wrapper2 {M R : Type} (sequential : M -> M -> R)
  : bool -> M -> M -> R :=
  fun is_qat m1 m2 => sequential m2 m1.

Definition reverse2 {X Y R : Type} (f : bool -> Y -> X -> R) : bool -> X -> Y -> R :=
  fun is_qat x y => f is_qat y x.

Definition reverse3 {X Y Z R : Type} (f : bool -> Z -> Y -> X -> R)
  : bool -> X -> Y * Z -> R :=
  fun is_qat x w => let '(y, z) := w in f is_qat z y x.

(** ** The mapping tables

    A value of a table is a callable ([Union[nn.Sequential, Callable]] in the
    annotations): one taking [is_qat] and two modules, one taking [is_qat] and
    three modules, or, in the pattern table, one taking [is_qat], a module and
    a pair of modules. *)

Inductive FuserMethod :=
  | Fuser2 (f : bool -> NNModule -> NNModule -> result NNModule)
  | Fuser3 (f : bool -> NNModule -> NNModule -> NNModule -> result NNModule)
  | FuserNested (f : bool -> NNModule -> NNModule * NNModule -> result NNModule).

Definition key2 (a b : ModuleType) : Pattern := PTuple [PClass a; PClass b].
Definition key3 (a b c : ModuleType) : Pattern :=
  PTuple [PClass a; PClass b; PClass c].
Definition key_nested (a b c : ModuleType) : Pattern :=
  PTuple [PClass a; PTuple [PClass b; PClass c]].

Section Tables.
Context `{F : Framework}.

Definition op_list_entries : list (Pattern * FuserMethod) :=
  [ (key2 Conv1d BatchNorm1d, Fuser2 fuse_conv_bn);
    (key3 Conv1d BatchNorm1d ReLU, Fuser3 fuse_conv_bn_relu);
    (key2 Conv2d BatchNorm2d, Fuser2 fuse_conv_bn);
    (key3 Conv2d BatchNorm2d ReLU, Fuser3 fuse_conv_bn_relu);
    (key2 Conv3d BatchNorm3d, Fuser2 fuse_conv_bn);
    (key3 Conv3d BatchNorm3d ReLU, Fuser3 fuse_conv_bn_relu);
    (key2 Conv1d ReLU, Fuser2 (sequential_wrapper2 (nni ConvReLU1d)));
    (key2 Conv2d ReLU, Fuser2 (sequential_wrapper2 (nni ConvReLU2d)));
    (key2 Conv3d ReLU, Fuser2 (sequential_wrapper2 (nni ConvReLU3d)));
    (key2 Linear BatchNorm1d, Fuser2 fuse_linear_bn);
    (key2 Linear ReLU, Fuser2 (sequential_wrapper2 (nni LinearReLU)));
    (key2 BatchNorm2d ReLU, Fuser2 (sequential_wrapper2 (nni BNReLU2d)));
    (key2 BatchNorm3d ReLU, Fuser2 (sequential_wrapper2 (nni BNReLU3d)));
    (key2 ConvTranspose1d BatchNorm1d, Fuser2 fuse_convtranspose_bn);
    (key2 ConvTranspose2d BatchNorm2d, Fuser2 fuse_convtranspose_bn);
    (key2 ConvTranspose3d BatchNorm3d, Fuser2 fuse_convtranspose_bn) ].

Definition DEFAULT_OP_LIST_TO_FUSER_METHOD : gmap Pattern FuserMethod :=
  list_to_map op_list_entries.

Definition pattern_entries : list (Pattern * FuserMethod) :=
  [ (key2 BatchNorm1d Conv1d, Fuser2 (reverse2 fuse_conv_bn));
    (key_nested ReLU BatchNorm1d Conv1d, FuserNested (reverse3 fuse_conv_bn_relu));
    (key2 BatchNorm2d Conv2d, Fuser2 (reverse2 fuse_conv_bn));
    (key_nested ReLU BatchNorm2d Conv2d, FuserNested (reverse3 fuse_conv_bn_relu));
    (key2 BatchNorm3d Conv3d, Fuser2 (reverse2 fuse_conv_bn));
    (key_nested ReLU BatchNorm3d Conv3d, FuserNested (reverse3 fuse_conv_bn_relu));
    (key2 ReLU Conv1d, Fuser2 (reverse_sequential_wrapper2 (nni ConvReLU1d)));
    (key2 ReLU Conv2d, Fuser2 (reverse_sequential_wrapper2 (nni ConvReLU2d)));
    (key2 ReLU Conv3d, Fuser2 (reverse_sequential_wrapper2 (nni ConvReLU3d)));
    (key2 BatchNorm1d Linear, Fuser2 (reverse2 fuse_linear_bn));
    (key2 ReLU Linear, Fuser2 (reverse_sequential_wrapper2 (nni LinearReLU)));
    (key2 ReLU BatchNorm2d, Fuser2 (reverse_sequential_wrapper2 (nni BNReLU2d)));
    (key2 ReLU BatchNorm3d, Fuser2 (reverse_sequential_wrapper2 (nni BNReLU3d)));
    (key2 BatchNorm1d ConvTranspose1d, Fuser2 (reverse2 fuse_convtranspose_bn));
    (key2 BatchNorm2d ConvTranspose2d, Fuser2 (reverse2 fuse_convtranspose_bn));
    (key2 BatchNorm3d ConvTranspose3d, Fuser2 (reverse2 fuse_convtranspose_bn)) ].

Definition DEFAULT_PATTERN_TO_FUSER_METHOD : gmap Pattern FuserMethod :=
  list_to_map pattern_entries.

(** Modelled from the spec: [get_combined_dict] of
    [torch.ao.quantization.utils], imported by the file and absent from the
    repository: the "optional override mapping is merged over the default
    table (override wins on key collision)". *)
Definition get_combined_dict (default_dict additional_dict : gmap Pattern FuserMethod)
  : gmap Pattern FuserMethod :=
  additional_dict ∪ default_dict.

(** [d.get(key, None)] followed by [assert fuser_method is not None]. *)
Definition get_or_assert (d : gmap Pattern FuserMethod) (key : Pattern)
  : result FuserMethod :=
  match d !! key with
  | Some fuser_method => Ok fuser_method
  | None => Raise AssertionError
  end.

Definition get_fuser_method (op_list : Pattern)
    (additional_fuser_method_mapping : option (gmap Pattern FuserMethod))
  : result FuserMethod :=
  let additional_fuser_method_mapping :=
    match additional_fuser_method_mapping with
    | None => ∅
    | Some d => d
    end in
  let all_mappings :=
    get_combined_dict DEFAULT_OP_LIST_TO_FUSER_METHOD
                      additional_fuser_method_mapping in
  get_or_assert all_mappings op_list.

Definition get_fuser_method_new (op_pattern : Pattern)
    (fuser_method_mapping : option (gmap Pattern FuserMethod))
  : result FuserMethod :=
  let fuser_method_mapping :=
    match fuser_method_mapping with
    | None => DEFAULT_PATTERN_TO_FUSER_METHOD
    | Some d => d
    end in
  get_or_assert fuser_method_mapping op_pattern.

End Tables.

(** ** The lookups on a store of dictionary objects

    Python dictionaries are mutable objects reached through references.  To
    speak of what a lookup leaves unchanged, the two lookups are given a second
    time over a store mapping references to dictionaries: the default tables
    are module-level objects, the caller's mapping is an object of the caller,
    [dict()] and [.copy()] allocate a new object and [.update] writes to its
    receiver.  A computation yields [None] on a dangling reference, which a
    Python program cannot hold. *)

Module Store.

Definition loc := positive.

Definition M (A : Type) : Type :=
  gmap loc (gmap Pattern FuserMethod) ->
  option (result A * gmap loc (gmap Pattern FuserMethod)).

Definition ret {A} (a : A) : M A := fun σ => Some (Ok a, σ).

Definition raise {A} (e : Exn) : M A := fun σ => Some (Raise e, σ).

Definition bind {A B} (m : M A) (k : A -> M B) : M B :=
  fun σ =>
    match m σ with
    | Some (Ok a, σ') => k a σ'
    | Some (Raise e, σ') => Some (Raise e, σ')
    | None => None
    end.

Notation "'let*' x ':=' m 'in' k" := (bind m (fun x => k))
  (at level 10, x name, m at level 100, k at level 200, only parsing).

(** [dict()] *)
Definition dict_new : M loc :=
  fun σ => let l := fresh (dom σ) in Some (Ok l, <[l := ∅]> σ).

(** [d.copy()] *)
Definition dict_copy (d : loc) : M loc :=
  fun σ =>
    match σ !! d with
    | Some m => let l := fresh (dom σ) in Some (Ok l, <[l := m]> σ)
    | None => None
    end.

(** [d.update(other)] *)
Definition dict_update (d other : loc) : M unit :=
  fun σ =>
    match σ !! d, σ !! other with
    | Some m, Some m' => Some (Ok tt, <[d := m' ∪ m]> σ)
    | _, _ => None
    end.

(** [d.get(key, None)] *)
Definition dict_get (d : loc) (key : Pattern) : M (option FuserMethod) :=
  fun σ =>
    match σ !! d with
    | Some m => Some (Ok (m !! key), σ)
    | None => None
    end.

(** Modelled from the spec: [get_combined_dict] of
    [torch.ao.quantization.utils], absent from the repository; the override
    mapping "is merged over the default table (override wins on key
    collision)", into a copy, the tables being "immutable dictionaries". *)
Definition get_combined_dict (default_dict additional_dict : loc) : M loc :=
  let* d := dict_copy default_dict in
  let* _ := dict_update d additional_dict in
  ret d.

Section Lookups.
(** The references held by the two module-level names. *)
Variables DEFAULT_OP_LIST_TO_FUSER_METHOD DEFAULT_PATTERN_TO_FUSER_METHOD : loc.

Definition get_fuser_method (op_list : Pattern)
    (additional_fuser_method_mapping : option loc) : M FuserMethod :=
  let* additional_fuser_method_mapping :=
    match additional_fuser_method_mapping with
    | None => dict_new
    | Some d => ret d
    end in
  let* all_mappings :=
    get_combined_dict DEFAULT_OP_LIST_TO_FUSER_METHOD
                      additional_fuser_method_mapping in
  let* fuser_method := dict_get all_mappings op_list in
  match fuser_method with
  | Some f => ret f
  | None => raise AssertionError
  end.

Definition get_fuser_method_new (op_pattern : Pattern)
    (fuser_method_mapping : option loc) : M FuserMethod :=
  let fuser_method_mapping :=
    match fuser_method_mapping with
    | None => DEFAULT_PATTERN_TO_FUSER_METHOD
    | Some d => d
    end in
  let* fuser_method := dict_get fuser_method_mapping op_pattern in
  match fuser_method with
  | Some f => ret f
  | None => raise AssertionError
  end.

End Lookups.

(** An optional argument: [None], or a reference to a dictionary of the
    store. *)
Definition refers (σ : gmap loc (gmap Pattern FuserMethod))
    (arg : option loc) (mapping : option (gmap Pattern FuserMethod)) : Prop :=
  match arg, mapping with
  | None, None => True
  | Some l, Some m => σ !! l = Some m
  | _, _ => False
  end.

(** What a caller can observe of the objects that existed before a call. *)
Definition preserved (σ σ' : gmap loc (gmap Pattern FuserMethod)) : Prop :=
  forall l m, σ !! l = Some m -> σ' !! l = Some m.

End Store.

(** ** A concrete framework

    An instance of [Framework] to evaluate the functions on concrete modules.
    It follows what the routines of [torch] check: the classes of
    [torch.nn.intrinsic] assert the classes of their arguments, and a new
    container is in training mode; the two [_eval] routines assert that both
    modules are in evaluation mode and return a copy of the first one with
    folded parameters, which have no counterpart in [NNModule]. *)

Definition expected_classes (cls : ModuleType) : option (list ModuleType) :=
  match cls with
  | ConvBn1d => Some [Conv1d; BatchNorm1d]
  | ConvBn2d => Some [Conv2d; BatchNorm2d]
  | ConvBn3d => Some [Conv3d; BatchNorm3d]
  | ConvBnReLU1d => Some [Conv1d; BatchNorm1d; ReLU]
  | ConvBnReLU2d => Some [Conv2d; BatchNorm2d; ReLU]
  | ConvBnReLU3d => Some [Conv3d; BatchNorm3d; ReLU]
  | ConvReLU1d => Some [Conv1d; ReLU]
  | ConvReLU2d => Some [Conv2d; ReLU]
  | ConvReLU3d => Some [Conv3d; ReLU]
  | LinearReLU => Some [Linear; ReLU]
  | BNReLU2d => Some [BatchNorm2d; ReLU]
  | BNReLU3d => Some [BatchNorm3d; ReLU]
  | _ => None
  end.

Definition container (cls : ModuleType) (ms : list NNModule) : NNModule :=
  {| mtype := cls; training := true; out_channels := None;
     num_features := None; affine := None; track_running_stats := None;
     submodules := ms |}.

Definition eval_only (m1 m2 : NNModule) : result NNModule :=
  py_assert (negb (training m1 || training m2)) ;; Ok m1.

#[global] Instance torch_like : Framework := {|
  fuse_conv_bn_eval conv bn transpose := eval_only conv bn;
  fuse_linear_bn_eval linear bn := eval_only linear bn;
  instantiate cls ms :=
    match expected_classes cls with
    | Some ts =>
        py_assert (bool_decide (map mtype ms = ts)) ;; Ok (container cls ms)
    | None => Raise NotImplementedError
    end
|}.

(** Sample modules. *)
Definition conv_module (cls : ModuleType) (train : bool) (channels : Z) : NNModule :=
  {| mtype := cls; training := train; out_channels := Some channels;
     num_features := None; affine := None; track_running_stats := None;
     submodules := [] |}.

Definition bn_module (cls : ModuleType) (train : bool) (features : Z)
    (aff stats : bool) : NNModule :=
  {| mtype := cls; training := train; out_channels := None;
     num_features := Some features; affine := Some aff;
     track_running_stats := Some stats; submodules := [] |}.

Definition plain_module (cls : ModuleType) (train : bool) : NNModule :=
  {| mtype := cls; training := train; out_channels := None;
     num_features := None; affine := None; track_running_stats := None;
     submodules := [] |}.

(** ** Vocabulary of the properties *)

(** The key a tuple of modules is looked up under: the tuple of their classes. *)
Definition key_of (ms : list NNModule) : Pattern :=
  PTuple (map (fun m => PClass (mtype m)) ms).

(** What the training-mode path of [fuse_conv_bn] and [fuse_conv_bn_relu]
    asserts of a convolution and a batch norm. *)
Definition qat_ready (conv bn : NNModule) : Prop :=
  training conv = true /\
  (exists n, num_features bn = Some n /\ out_channels conv = Some n) /\
  affine bn = Some true /\
  track_running_stats bn = Some true.

(** The class of the single module a registered pattern is fused into: in
    training mode the class of [torch.nn.intrinsic] that holds the modules,
    in post-training mode the class of the first module, whose parameters
    absorb the batch norm, or the class that holds it with the [nn.ReLU].
    A linear layer or a transposed convolution with a batch norm has no fused
    class in training mode. *)
Definition fused_class_table
  : list (list ModuleType * (option ModuleType * ModuleType)) :=
  [ ([Conv1d; BatchNorm1d], (Some ConvBn1d, Conv1d));
    ([Conv1d; BatchNorm1d; ReLU], (Some ConvBnReLU1d, ConvReLU1d));
    ([Conv2d; BatchNorm2d], (Some ConvBn2d, Conv2d));
    ([Conv2d; BatchNorm2d; ReLU], (Some ConvBnReLU2d, ConvReLU2d));
    ([Conv3d; BatchNorm3d], (Some ConvBn3d, Conv3d));
    ([Conv3d; BatchNorm3d; ReLU], (Some ConvBnReLU3d, ConvReLU3d));
    ([Conv1d; ReLU], (Some ConvReLU1d, ConvReLU1d));
    ([Conv2d; ReLU], (Some ConvReLU2d, ConvReLU2d));
    ([Conv3d; ReLU], (Some ConvReLU3d, ConvReLU3d));
    ([Linear; BatchNorm1d], (None, Linear));
    ([Linear; ReLU], (Some LinearReLU, LinearReLU));
    ([BatchNorm2d; ReLU], (Some BNReLU2d, BNReLU2d));
    ([BatchNorm3d; ReLU], (Some BNReLU3d, BNReLU3d));
    ([ConvTranspose1d; BatchNorm1d], (None, ConvTranspose1d));
    ([ConvTranspose2d; BatchNorm2d], (None, ConvTranspose2d));
    ([ConvTranspose3d; BatchNorm3d], (None, ConvTranspose3d)) ].

Definition fused_class (is_qat : bool) (classes : list ModuleType)
  : option ModuleType :=
  match (list_to_map fused_class_table
           : gmap (list ModuleType) (option ModuleType * ModuleType)) !! classes with
  | Some (in_training, post_training) =>
      if is_qat then in_training else Some post_training
  | None => None
  end.

(** What the file relies on from the framework, [folds] being the pairs of
    modules its folding routines accept: a class of [torch.nn.intrinsic]
    builds an instance of itself from modules of the classes it is declared
    for, and a folding routine returns a module of the class of its first
    argument. *)
Record FrameworkContract `{F : Framework}
    (folds : NNModule -> NNModule -> Prop) : Prop := {
  constructs : forall cls ts ms,
    expected_classes cls = Some ts ->
    map mtype ms = ts ->
    exists m, instantiate cls ms = Ok m /\ mtype m = cls;
  folds_conv : forall conv bn transpose,
    folds conv bn ->
    exists fused,
      fuse_conv_bn_eval conv bn transpose = Ok fused /\ mtype fused = mtype conv;
  folds_linear : forall linear bn,
    folds linear bn ->
    exists fused,
      fuse_linear_bn_eval linear bn = Ok fused /\ mtype fused = mtype linear
}.

(** The folding routines of [torch] accept modules in evaluation mode. *)
Definition both_in_eval (m1 m2 : NNModule) : Prop :=
  training m1 = false /\ training m2 = false.

(** The modes a registered function supports: a sequential wrapper both, a
    fusion function the post-training mode, on modules the framework folds,
    and the training mode only for a convolution with a batch norm that is
    [qat_ready]. *)
Definition fusion_supported (folds : NNModule -> NNModule -> Prop)
    (is_qat : bool) (ms : list NNModule) : Prop :=
  match ms with
  | m1 :: m2 :: _ =>
      mtype m2 = ReLU \/
      (is_qat = false /\ folds m1 m2) \/
      (is_qat = true /\ mtype m1 ∈ [Conv1d; Conv2d; Conv3d] /\ qat_ready m1 m2)
  | _ => False
  end.

(** Every entry of a table takes the arguments its key describes. *)
Definition well_shaped (k : Pattern) (v : FuserMethod) : Prop :=
  match v with
  | Fuser2 _ => exists a b, k = key2 a b
  | Fuser3 _ => exists a b c, k = key3 a b c
  | FuserNested _ => exists a b c, k = key_nested a b c
  end.

(** The keys of the sequential wrappers: the pairs with [nn.ReLU].  Every
    other key is registered to a function that folds a batch norm. *)
Definition wraps_relu (k : Pattern) : bool :=
  match k with
  | PTuple [PClass a; PClass b] => bool_decide (a = ReLU) || bool_decide (b = ReLU)
  | _ => false
  end.

Definition checks_training_flags (v : FuserMethod) : Prop :=
  match v with
  | Fuser2 f =>
      forall is_qat m1 m2,
        training m1 <> training m2 -> f is_qat m1 m2 = Raise AssertionError
  | Fuser3 f =>
      forall is_qat m1 m2 m3,
        ~ (training m1 = training m2 /\ training m2 = training m3) ->
        f is_qat m1 m2 m3 = Raise AssertionError
  | FuserNested f =>
      forall is_qat m1 m2 m3,
        ~ (training m1 = training m2 /\ training m2 = training m3) ->
        f is_qat m1 (m2, m3) = Raise AssertionError
  end.

(** [rev] computes [fwd] on the arguments in reverse order. *)
Definition reversed_of (fwd rev : FuserMethod) : Prop :=
  match fwd, rev with
  | Fuser2 f, Fuser2 g => forall is_qat x y, g is_qat x y = f is_qat y x
  | Fuser3 f, FuserNested g =>
      forall is_qat x y z, g is_qat x (y, z) = f is_qat z y x
  | _, _ => False
  end.

(** The key under which the pattern table registers the reverse of a key of
    the list table: [(a, b)] becomes [(b, a)] and [(a, b, c)] becomes
    [(c, (b, a))]. *)
Definition reverse_key (k : Pattern) : Pattern :=
  match k with
  | PTuple [a; b] => PTuple [b; a]
  | PTuple [a; b; c] => PTuple [c; PTuple [b; a]]
  | _ => k
  end.

(** The key of the list table a key of the pattern table comes from. *)
Definition forward_key (k : Pattern) : Pattern :=
  match k with
  | PTuple [c; PTuple [b; a]] => PTuple [a; b; c]
  | PTuple [b; a] => PTuple [a; b]
  | _ => k
  end.

(** ** Sample modules and a sample store *)

Definition conv2d_train : NNModule := conv_module Conv2d true 20.
Definition conv1d_train : NNModule := conv_module Conv1d true 8.
Definition bn2d_train : NNModule := bn_module BatchNorm2d true 20 true true.
Definition bn2d_eval : NNModule := bn_module BatchNorm2d false 20 true true.
Definition bn2d_narrow : NNModule := bn_module BatchNorm2d true 10 true true.
Definition bn1d_train : NNModule := bn_module BatchNorm1d true 8 true true.
Definition linear_train : NNModule := plain_module Linear true.
Definition relu_train : NNModule := plain_module ReLU true.
Definition relu_eval : NNModule := plain_module ReLU false.

(** A store after the import of the file: the two default tables, and a
    mapping of a caller that registers one pattern. *)
Definition sample_store : gmap Store.loc (gmap Pattern FuserMethod) :=
  <[1%positive := DEFAULT_OP_LIST_TO_FUSER_METHOD]>
    (<[2%positive := DEFAULT_PATTERN_TO_FUSER_METHOD]>
       (<[3%positive := {[key2 Linear ReLU := Fuser2 fuse_linear_bn]}]> ∅)).

(** A framework that builds the classes of [torch_like] and has no folding
    routine. *)
Definition without_folding : Framework := {|
  fuse_conv_bn_eval conv bn transpose := Raise NotImplementedError;
  fuse_linear_bn_eval linear bn := Raise NotImplementedError;
  instantiate := @instantiate torch_like
|}.

Definition convtranspose2d_train : NNModule := conv_module ConvTranspose2d true 20.
Definition bare_train : NNModule := plain_module Linear true.

(** A small store: a table registering one pattern, and an empty table. *)
Definition small_store : gmap Store.loc (gmap Pattern FuserMethod) :=
  <[1%positive := {[key2 Linear ReLU := Fuser2 fuse_linear_bn]}]>
    (<[2%positive := ∅]> ∅).

(** * Properties *)

(** ** The lookups *)

Section LookupProperties.
Context `{F : Framework}.

Lemma lookup_combined_dict (default_dict additional_dict : gmap Pattern FuserMethod)
    (key : Pattern) :
  get_combined_dict default_dict additional_dict !! key =
    match additional_dict !! key with
    | Some f => Some f
    | None => default_dict !! key
    end.
Proof.
  unfold get_combined_dict. rewrite lookup_union.
  destruct (additional_dict !! key) as [f|]; simpl.
  - by destruct (default_dict !! key).
  - by destruct (default_dict !! key).
Qed.

(** C1.  [get_fuser_method] looks the key up in the default table merged
    with the override mapping: the entry of the override wins whenever it has
    one, the entry of the default table is used otherwise, and the entry found
    is what the call returns. *)
Theorem get_fuser_method_merged (op_list : Pattern)
    (additional : option (gmap Pattern FuserMethod)) :
  get_fuser_method op_list additional =
    match default ∅ additional !! op_list with
    | Some override_entry => Ok override_entry
    | None =>
        match DEFAULT_OP_LIST_TO_FUSER_METHOD !! op_list with
        | Some default_entry => Ok default_entry
        | None => Raise AssertionError
        end
    end.
Proof.
  unfold get_fuser_method, get_or_assert.
  rewrite lookup_combined_dict.
  destruct additional as [d|]; cbn [from_option id].
  - by destruct (d !! op_list).
  - by rewrite lookup_empty.
Qed.

(** C2, as the code has it.  [get_fuser_method_new] merges nothing: a mapping
    supplied by the caller replaces the default pattern table, and the default
    pattern table is read only when no mapping is supplied.  A pattern of the
    default table that the supplied mapping lacks is found without a mapping
    and makes the call raise with it. *)
Theorem get_fuser_method_new_replaces (op_pattern : Pattern) :
  (forall mapping : gmap Pattern FuserMethod,
     get_fuser_method_new op_pattern (Some mapping) =
       match mapping !! op_pattern with
       | Some f => Ok f
       | None => Raise AssertionError
       end) /\
  get_fuser_method_new op_pattern None =
    match DEFAULT_PATTERN_TO_FUSER_METHOD !! op_pattern with
    | Some f => Ok f
    | None => Raise AssertionError
    end /\
  (forall (mapping : gmap Pattern FuserMethod) f,
     DEFAULT_PATTERN_TO_FUSER_METHOD !! op_pattern = Some f ->
     mapping !! op_pattern = None ->
     get_fuser_method_new op_pattern None = Ok f /\
     get_fuser_method_new op_pattern (Some mapping) = Raise AssertionError).
Proof.
  split; [reflexivity|]. split; [reflexivity|].
  intros mapping f Hdefault Habsent.
  unfold get_fuser_method_new, get_or_assert.
  by rewrite Hdefault, Habsent.
Qed.

(** C3.  A key absent from the mapping that is searched makes both lookups
    raise [AssertionError]: the merged mapping for [get_fuser_method], the
    supplied mapping, or the default pattern table when none is supplied, for
    [get_fuser_method_new]. *)
Theorem unregistered_pattern_raises (key : Pattern)
    (additional mapping : option (gmap Pattern FuserMethod)) :
  (get_combined_dict DEFAULT_OP_LIST_TO_FUSER_METHOD (default ∅ additional)
     !! key = None ->
   get_fuser_method key additional = Raise AssertionError) /\
  (default DEFAULT_PATTERN_TO_FUSER_METHOD mapping !! key = None ->
   get_fuser_method_new key mapping = Raise AssertionError).
Proof.
  split; intros Habsent.
  - unfold get_fuser_method, get_or_assert.
    destruct additional; cbn [from_option id] in *; by rewrite Habsent.
  - unfold get_fuser_method_new, get_or_assert.
    destruct mapping; cbn [from_option id] in *; by rewrite Habsent.
Qed.

End LookupProperties.

(** In the default pattern table [(nn.BatchNorm1d, nn.Conv1d)] is registered,
    and with an empty mapping supplied the lookup of that pattern raises. *)
Lemma get_fuser_method_new_not_merged :
  is_Some (DEFAULT_PATTERN_TO_FUSER_METHOD !! key2 BatchNorm1d Conv1d) /\
  get_fuser_method_new (key2 BatchNorm1d Conv1d) (Some ∅)
    = Raise AssertionError.
Proof. split; [eexists|]; vm_compute; reflexivity. Qed.

Lemma get_fuser_method_new_replaces_witness :
  get_fuser_method_new (key2 ReLU Linear) None
    = Ok (Fuser2 (reverse_sequential_wrapper2 (nni LinearReLU))) /\
  get_fuser_method_new (key2 ReLU Linear)
      (Some {[key2 BatchNorm1d Linear := Fuser2 (reverse2 fuse_linear_bn)]})
    = Raise AssertionError.
Proof.
  destruct (get_fuser_method_new_replaces (key2 ReLU Linear)) as (_ & _ & H).
  apply H; vm_compute; reflexivity.
Defined.

Lemma unregistered_pattern_raises_witness :
  get_fuser_method (PClass ReLU) None = Raise AssertionError /\
  get_fuser_method_new (PClass ReLU) None = Raise AssertionError.
Proof.
  destruct (unregistered_pattern_raises (PClass ReLU) None None) as [H1 H2].
  split; [apply H1 | apply H2]; vm_compute; reflexivity.
Defined.

(** ** The fusion functions *)

Section FuserProperties.
Context `{F : Framework}.

Lemma eqb_training_false (m1 m2 : NNModule) :
  training m1 <> training m2 -> eqb (training m1) (training m2) = false.
Proof. intros Hne. by apply eqb_false_iff. Qed.

Lemma fuse_conv_bn_mismatch (is_qat : bool) (conv bn : NNModule) :
  training conv <> training bn ->
  fuse_conv_bn is_qat conv bn = Raise AssertionError.
Proof.
  intros Hne. unfold fuse_conv_bn.
  by rewrite (eqb_training_false _ _ Hne).
Qed.

Lemma fuse_conv_bn_relu_mismatch (is_qat : bool) (conv bn relu : NNModule) :
  ~ (training conv = training bn /\ training bn = training relu) ->
  fuse_conv_bn_relu is_qat conv bn relu = Raise AssertionError.
Proof.
  intros Hne. unfold fuse_conv_bn_relu.
  destruct (eqb (training conv) (training bn)) eqn:E1;
    destruct (eqb (training bn) (training relu)) eqn:E2; try reflexivity.
  apply eqb_prop in E1, E2. by destruct Hne.
Qed.

Lemma fuse_linear_bn_mismatch (is_qat : bool) (linear bn : NNModule) :
  training linear <> training bn ->
  fuse_linear_bn is_qat linear bn = Raise AssertionError.
Proof.
  intros Hne. unfold fuse_linear_bn.
  by rewrite (eqb_training_false _ _ Hne).
Qed.

Lemma fuse_convtranspose_bn_mismatch (is_qat : bool) (convt bn : NNModule) :
  training convt <> training bn ->
  fuse_convtranspose_bn is_qat convt bn = Raise AssertionError.
Proof.
  intros Hne. unfold fuse_convtranspose_bn.
  by rewrite (eqb_training_false _ _ Hne).
Qed.

(** C5.  With [is_qat] true, [fuse_linear_bn] and [fuse_convtranspose_bn]
    raise on every pair of modules: [AssertionError] when the training flags
    differ or the first module is not in training mode, the explicit
    exception otherwise.  They return no module. *)
Theorem qat_linear_convtranspose_raise (m bn : NNModule) :
  let raised :=
    Raise (if eqb (training m) (training bn) && training m
           then PyException else AssertionError) in
  fuse_linear_bn true m bn = raised /\
  fuse_convtranspose_bn true m bn = raised /\
  raises (fuse_linear_bn true m bn) /\
  raises (fuse_convtranspose_bn true m bn).
Proof.
  unfold fuse_linear_bn, fuse_convtranspose_bn, raises.
  destruct (training m), (training bn); simpl; eauto 6.
Qed.

(** C7.  The function returned by [sequential_wrapper2 S] returns [S(m1, m2)]
    whatever [is_qat] is.  It is defined for modules of any type [M], so it
    reads nothing of them, neither a training flag nor a parameter; on a class
    of the framework the result is the instance the class builds from the two
    modules. *)
Theorem sequential_wrapper2_combines {M R : Type} (S : M -> M -> R)
    (is_qat is_qat' : bool) (m1 m2 : M) (cls : ModuleType) (n1 n2 : NNModule) :
  sequential_wrapper2 S is_qat m1 m2 = S m1 m2 /\
  sequential_wrapper2 S is_qat m1 m2 = sequential_wrapper2 S is_qat' m1 m2 /\
  sequential_wrapper2 (nni cls) is_qat n1 n2 = instantiate cls [n1; n2].
Proof. repeat split. Qed.

(** The two functions in quantization-aware-training mode, on modules that
    have the attributes read: one guard, then the class of the fused module. *)
Lemma fuse_conv_bn_qat (conv bn : NNModule) (oc nf : Z) (a t : bool) :
  out_channels conv = Some oc ->
  num_features bn = Some nf ->
  affine bn = Some a ->
  track_running_stats bn = Some t ->
  fuse_conv_bn true conv bn =
    if eqb (training conv) (training bn) && training conv
       && bool_decide (nf = oc) && a && t
    then match fused_module_class_map (mtype conv) with
         | Some cls => instantiate cls [conv; bn]
         | None => Raise NotImplementedError
         end
    else Raise AssertionError.
Proof.
  intros Hoc Hnf Ha Ht. unfold fuse_conv_bn, getattr.
  rewrite Hoc, Hnf, Ha, Ht.
  destruct (training conv), (training bn); try reflexivity.
  cbn [eqb andb py_assert mbind result_bind].
  case_bool_decide; [|reflexivity].
  by destruct a, t.
Qed.

Lemma fuse_conv_bn_relu_qat (conv bn relu : NNModule) (oc nf : Z) (a t : bool) :
  out_channels conv = Some oc ->
  num_features bn = Some nf ->
  affine bn = Some a ->
  track_running_stats bn = Some t ->
  fuse_conv_bn_relu true conv bn relu =
    if eqb (training conv) (training bn) && eqb (training bn) (training relu)
       && training conv && bool_decide (nf = oc) && a && t
    then match map_to_fused_module_train (mtype conv) with
         | Some cls => instantiate cls [conv; bn; relu]
         | None => Raise NotImplementedError
         end
    else Raise AssertionError.
Proof.
  intros Hoc Hnf Ha Ht. unfold fuse_conv_bn_relu, getattr.
  rewrite Hoc, Hnf, Ha, Ht.
  destruct (training conv), (training bn), (training relu); try reflexivity.
  cbn [eqb andb py_assert mbind result_bind].
  case_bool_decide; [|reflexivity].
  by destruct a, t.
Qed.

Lemma guard_ready (same : bool) (conv : NNModule) (oc nf : Z) (a t : bool) :
  same && training conv && bool_decide (nf = oc) && a && t = true ->
  training conv = true /\ nf = oc /\ a = true /\ t = true.
Proof.
  rewrite !andb_true_iff, bool_decide_eq_true. tauto.
Qed.

Lemma guard_not_ready (same : bool) (conv : NNModule) (oc nf : Z) (a t : bool) :
  ~ (training conv = true /\ nf = oc /\ a = true /\ t = true) ->
  same && training conv && bool_decide (nf = oc) && a && t = false.
Proof.
  intros Hn. apply not_true_is_false. intros Hg.
  by apply Hn, (guard_ready same).
Qed.

(** C10.  In quantization-aware-training mode, on a convolution and a batch
    norm that have the attributes read, [fuse_conv_bn] and [fuse_conv_bn_relu]
    raise [AssertionError] unless [conv.training] is true, [bn.num_features]
    equals [conv.out_channels], [bn.affine] is true and
    [bn.track_running_stats] is true; a module is returned only when the four
    hold and the class of [conv] is [Conv1d], [Conv2d] or [Conv3d]. *)
Theorem qat_conv_bn_preconditions (conv bn relu : NNModule)
    (oc nf : Z) (a t : bool) :
  out_channels conv = Some oc ->
  num_features bn = Some nf ->
  affine bn = Some a ->
  track_running_stats bn = Some t ->
  let ready := training conv = true /\ nf = oc /\ a = true /\ t = true in
  (~ ready ->
   fuse_conv_bn true conv bn = Raise AssertionError /\
   fuse_conv_bn_relu true conv bn relu = Raise AssertionError) /\
  (forall m,
     fuse_conv_bn true conv bn = Ok m \/
     fuse_conv_bn_relu true conv bn relu = Ok m ->
     ready /\ mtype conv ∈ [Conv1d; Conv2d; Conv3d]).
Proof.
  intros Hoc Hnf Ha Ht ready. subst ready.
  rewrite (fuse_conv_bn_qat conv bn oc nf a t Hoc Hnf Ha Ht).
  rewrite (fuse_conv_bn_relu_qat conv bn relu oc nf a t Hoc Hnf Ha Ht).
  split.
  - intros Hn. by rewrite !guard_not_ready.
  - intros m [Hm|Hm].
    + destruct (_ && _ && _ && _ && t) eqn:Hg in Hm; [|discriminate].
      split; [by apply guard_ready in Hg|].
      destruct (mtype conv); try discriminate Hm; set_solver.
    + destruct (_ && _ && _ && _ && _ && t) eqn:Hg in Hm; [|discriminate].
      split; [by apply guard_ready in Hg|].
      destruct (mtype conv); try discriminate Hm; set_solver.
Qed.

End FuserProperties.

(** ** The entries of the two tables *)

Ltac find_entry :=
  first [ apply list_elem_of_here | apply list_elem_of_further; find_entry ].

(** Splits a membership [(k, v) ∈ entries] in a literal list into one goal
    per entry, with [k] and [v] replaced. *)
Ltac entry_cases H :=
  repeat (apply elem_of_cons in H as [H|H]);
  [ .. | by apply elem_of_nil in H ];
  injection H as -> ->.

Section TableProperties.
Context `{F : Framework}.

Lemma op_list_keys_NoDup : NoDup (op_list_entries.*1).
Proof. apply (bool_decide_unpack _). vm_compute. reflexivity. Qed.

Lemma pattern_keys_NoDup : NoDup (pattern_entries.*1).
Proof. apply (bool_decide_unpack _). vm_compute. reflexivity. Qed.

Lemma op_list_lookup (k : Pattern) (v : FuserMethod) :
  DEFAULT_OP_LIST_TO_FUSER_METHOD !! k = Some v <-> (k, v) ∈ op_list_entries.
Proof. symmetry. apply elem_of_list_to_map, op_list_keys_NoDup. Qed.

Lemma pattern_lookup (k : Pattern) (v : FuserMethod) :
  DEFAULT_PATTERN_TO_FUSER_METHOD !! k = Some v <-> (k, v) ∈ pattern_entries.
Proof. symmetry. apply elem_of_list_to_map, pattern_keys_NoDup. Qed.


(** C8.  [reverse2], [reverse3] and [reverse_sequential_wrapper2] call the
    function they wrap on the arguments in reverse order, and the pattern
    table is the list table reversed: the reverse of every key of the list
    table is a key of the pattern table, whose entry computes the entry of the
    list table on the arguments in forward order, and the pattern table has no
    other key. *)
Theorem reversed_table_equivalent :
  (forall (X Y R : Type) (f : bool -> Y -> X -> R) is_qat x y,
     reverse2 f is_qat x y = f is_qat y x) /\
  (forall (X Y Z R : Type) (f : bool -> Z -> Y -> X -> R) is_qat x y z,
     reverse3 f is_qat x (y, z) = f is_qat z y x) /\
  (forall (M R : Type) (S : M -> M -> R) is_qat m1 m2,
     reverse_sequential_wrapper2 S is_qat m1 m2 = S m2 m1 /\
     reverse_sequential_wrapper2 S is_qat m1 m2
       = sequential_wrapper2 S is_qat m2 m1) /\
  (forall k fwd,
     DEFAULT_OP_LIST_TO_FUSER_METHOD !! k = Some fwd ->
     exists rev,
       DEFAULT_PATTERN_TO_FUSER_METHOD !! reverse_key k = Some rev /\
       reversed_of fwd rev) /\
  (forall k' rev,
     DEFAULT_PATTERN_TO_FUSER_METHOD !! k' = Some rev ->
     exists k fwd,
       k' = reverse_key k /\
       DEFAULT_OP_LIST_TO_FUSER_METHOD !! k = Some fwd /\
       reversed_of fwd rev).
Proof.
  split; [reflexivity|]. split; [reflexivity|]. split; [by split|]. split.
  - intros k fwd Hk. apply op_list_lookup in Hk.
    entry_cases Hk; eexists; (split; [apply pattern_lookup; find_entry|]);
      by intros is_qat.
  - intros k' rev Hk. apply pattern_lookup in Hk.
    entry_cases Hk;
      (match goal with
       | |- exists k fwd, ?k' = _ /\ _ => exists (forward_key k')
       end;
       eexists; split; [reflexivity|split; [apply op_list_lookup; find_entry|]]);
      by intros is_qat.
Qed.

End TableProperties.

(** ** Fusing the modules of a registered pattern *)

Section FusionOfRegistered.
Context `{F : Framework}.

Lemma eqb_training_true (m1 m2 : NNModule) :
  training m1 = training m2 -> eqb (training m1) (training m2) = true.
Proof. intros ->. apply eqb_reflx. Qed.

Lemma fuse_conv_bn_agree (is_qat : bool) (conv bn : NNModule) :
  training conv = training bn ->
  is_qat = false \/ qat_ready conv bn ->
  fuse_conv_bn is_qat conv bn =
    if is_qat then
      match fused_module_class_map (mtype conv) with
      | Some cls => instantiate cls [conv; bn]
      | None => Raise NotImplementedError
      end
    else fuse_conv_bn_eval conv bn false.
Proof.
  intros Hsame [->|(Htrain & (n & Hnf & Hoc) & Ha & Ht)].
  - unfold fuse_conv_bn. by rewrite eqb_training_true.
  - destruct is_qat.
    + rewrite (fuse_conv_bn_qat conv bn n n true true) by done.
      rewrite eqb_training_true, Htrain by done.
      by rewrite bool_decide_eq_true_2.
    + unfold fuse_conv_bn. by rewrite eqb_training_true.
Qed.

Lemma fuse_conv_bn_relu_agree (is_qat : bool) (conv bn relu : NNModule) :
  training conv = training bn ->
  training bn = training relu ->
  is_qat = false \/ qat_ready conv bn ->
  fuse_conv_bn_relu is_qat conv bn relu =
    if is_qat then
      match map_to_fused_module_train (mtype conv) with
      | Some cls => instantiate cls [conv; bn; relu]
      | None => Raise NotImplementedError
      end
    else
      match map_to_fused_module_eval (mtype conv) with
      | Some cls =>
          fused_conv ← fuse_conv_bn_eval conv bn false;
          instantiate cls [fused_conv; relu]
      | None => Raise NotImplementedError
      end.
Proof.
  intros Hsame Hsame' [->|(Htrain & (n & Hnf & Hoc) & Ha & Ht)].
  - unfold fuse_conv_bn_relu. by rewrite !eqb_training_true.
  - destruct is_qat.
    + rewrite (fuse_conv_bn_relu_qat conv bn relu n n true true) by done.
      rewrite !eqb_training_true, Htrain by done.
      by rewrite bool_decide_eq_true_2.
    + unfold fuse_conv_bn_relu. by rewrite !eqb_training_true.
Qed.

Lemma fuse_linear_bn_agree (linear bn : NNModule) :
  training linear = training bn ->
  fuse_linear_bn false linear bn = fuse_linear_bn_eval linear bn.
Proof. intros Hsame. unfold fuse_linear_bn. by rewrite eqb_training_true. Qed.

Lemma fuse_convtranspose_bn_agree (convt bn : NNModule) :
  training convt = training bn ->
  fuse_convtranspose_bn false convt bn = fuse_conv_bn_eval convt bn true.
Proof.
  intros Hsame. unfold fuse_convtranspose_bn. by rewrite eqb_training_true.
Qed.

(** From an equation between [key_of ms] and a key of a table: the classes
    of the modules, rewritten everywhere. *)
Ltac rewrite_classes :=
  repeat match goal with
         | E : mtype ?m = _ |- _ => rewrite ?E in *; revert E
         end;
  intros.

Ltac key_classes Hkey :=
  unfold key_of, key2, key3, key_nested in Hkey; cbn [map] in Hkey;
  injection Hkey; intros; clear Hkey;
  repeat match goal with
         | E : _ = mtype _ |- _ => symmetry in E
         end;
  rewrite_classes.

Lemma torch_like_contract : @FrameworkContract torch_like both_in_eval.
Proof.
  split.
  - intros cls ts ms Hcls Hms. exists (container cls ms).
    cbn [instantiate torch_like]. rewrite Hcls.
    by rewrite bool_decide_eq_true_2.
  - intros conv bn transpose [Hc Hb]. exists conv.
    cbn [fuse_conv_bn_eval torch_like]. unfold eval_only. by rewrite Hc, Hb.
  - intros linear bn [Hl Hb]. exists linear.
    cbn [fuse_linear_bn_eval torch_like]. unfold eval_only. by rewrite Hl, Hb.
Qed.

Section Returns.
Context (folds : NNModule -> NNModule -> Prop).
Context (contract : FrameworkContract folds).

Lemma constructed (cls : ModuleType) (ts : list ModuleType) (ms : list NNModule)
    (is_qat : bool) (classes : list ModuleType) :
  expected_classes cls = Some ts ->
  map mtype ms = ts ->
  fused_class is_qat classes = Some cls ->
  exists m, instantiate cls ms = Ok m /\
            fused_class is_qat classes = Some (mtype m).
Proof.
  intros Hcls Hms Hfused.
  destruct (constructs folds contract cls ts ms Hcls Hms) as (m & Hm & Hty).
  exists m. by rewrite Hty.
Qed.

Lemma folded_conv (conv bn : NNModule) (transpose : bool)
    (classes : list ModuleType) :
  folds conv bn ->
  fused_class false classes = Some (mtype conv) ->
  exists m, fuse_conv_bn_eval conv bn transpose = Ok m /\
            fused_class false classes = Some (mtype m).
Proof.
  intros Hfolds Hfused.
  destruct (folds_conv folds contract conv bn transpose Hfolds)
    as (m & Hm & Hty).
  exists m. by rewrite Hty.
Qed.

Lemma folded_linear (linear bn : NNModule) (classes : list ModuleType) :
  folds linear bn ->
  fused_class false classes = Some (mtype linear) ->
  exists m, fuse_linear_bn_eval linear bn = Ok m /\
            fused_class false classes = Some (mtype m).
Proof.
  intros Hfolds Hfused.
  destruct (folds_linear folds contract linear bn Hfolds) as (m & Hm & Hty).
  exists m. by rewrite Hty.
Qed.

Lemma folded_conv_relu (cls : ModuleType) (conv bn relu : NNModule)
    (classes : list ModuleType) :
  folds conv bn ->
  expected_classes cls = Some [mtype conv; mtype relu] ->
  fused_class false classes = Some cls ->
  exists m,
    (fused_conv ← fuse_conv_bn_eval conv bn false;
     instantiate cls [fused_conv; relu]) = Ok m /\
    fused_class false classes = Some (mtype m).
Proof.
  intros Hfolds Hcls Hfused.
  destruct (folds_conv folds contract conv bn false Hfolds)
    as (fused & -> & Hty).
  cbn [mbind result_bind].
  apply (constructed cls [mtype conv; mtype relu]); [done| |done].
  cbn [map]. by rewrite Hty.
Qed.

End Returns.

(** The cases of [fusion_supported] that the classes leave open. *)
Ltac supported Hmode :=
  destruct Hmode as [Hrelu|[[-> Hfolds]|[-> [Hclass Hready]]]];
  try discriminate Hrelu;
  try (exfalso;
       repeat (apply elem_of_cons in Hclass as [Hclass|Hclass];
               [discriminate Hclass|]);
       by apply elem_of_nil in Hclass).

Ltac class_eqs :=
  repeat match goal with E : mtype _ = _ |- _ => rewrite !E end.

Ltac fused_class_is :=
  class_eqs;
  first [ vm_compute; reflexivity
        | match goal with
          | |- fused_class ?q _ = _ => destruct q; vm_compute; reflexivity
          end ].

Ltac by_construction contract :=
  class_eqs; cbn [fused_module_class_map map_to_fused_module_train];
  eapply (constructed _ contract);
  [ reflexivity | cbn [map]; congruence | fused_class_is ].

Ltac by_folding contract Hfolds :=
  first
    [ apply (folded_conv _ contract); [exact Hfolds | fused_class_is]
    | apply (folded_linear _ contract); [exact Hfolds | fused_class_is]
    | class_eqs; cbn [map_to_fused_module_eval];
      apply (folded_conv_relu _ contract);
      [exact Hfolds | by class_eqs | fused_class_is] ].


End FusionOfRegistered.

(** ** The lookups leave the dictionaries as they were *)

Section StoreProperties.
Context `{F : Framework}.

Implicit Types σ : gmap Store.loc (gmap Pattern FuserMethod).

Lemma fresh_unallocated σ : σ !! fresh (dom σ) = None.
Proof. apply not_elem_of_dom, is_fresh. Qed.

(** [get_combined_dict] allocates the merged dictionary and writes to it
    only. *)
Lemma get_combined_dict_spec σ d1 d2 m1 m2 :
  σ !! d1 = Some m1 ->
  σ !! d2 = Some m2 ->
  exists l σ',
    Store.get_combined_dict d1 d2 σ = Some (Ok l, σ') /\
    σ' !! l = Some (get_combined_dict m1 m2) /\
    Store.preserved σ σ'.
Proof.
  intros H1 H2.
  exists (fresh (dom σ)), (<[fresh (dom σ) := m2 ∪ m1]> σ).
  pose proof (fresh_unallocated σ) as Hfresh.
  assert (fresh (dom σ) <> d2) as Hne by (intros E; by rewrite E, H2 in Hfresh).
  split; [|split].
  - unfold Store.get_combined_dict, Store.bind, Store.dict_copy,
      Store.dict_update, Store.ret.
    rewrite H1. rewrite lookup_insert_eq, lookup_insert_ne, H2 by done.
    by rewrite insert_insert_eq.
  - by rewrite lookup_insert_eq.
  - intros l0 m0 H0. rewrite lookup_insert_ne; [done|].
    intros E. by rewrite <- E, Hfresh in H0.
Qed.

(** C9.  In a store where the two module-level names refer to the default
    tables and the caller's reference, if any, to a dictionary, a call of
    [get_fuser_method] or of [get_fuser_method_new] completes, returning what
    the lookup on the dictionaries' contents returns, and every dictionary
    that existed before the call, the default tables and the caller's mapping
    among them, has the contents it had. *)
Theorem lookups_leave_dictionaries_unchanged σ
    (l_op_list l_pattern : Store.loc) (key : Pattern)
    (arg : option Store.loc) (mapping : option (gmap Pattern FuserMethod)) :
  σ !! l_op_list = Some DEFAULT_OP_LIST_TO_FUSER_METHOD ->
  σ !! l_pattern = Some DEFAULT_PATTERN_TO_FUSER_METHOD ->
  Store.refers σ arg mapping ->
  (exists σ',
     Store.get_fuser_method l_op_list key arg σ
       = Some (get_fuser_method key mapping, σ') /\
     Store.preserved σ σ') /\
  Store.get_fuser_method_new l_pattern key arg σ
    = Some (get_fuser_method_new key mapping, σ).
Proof.
  intros Hop Hpat Harg. split.
  - unfold Store.get_fuser_method.
    destruct arg as [l|], mapping as [m|]; try done; cbn [Store.refers] in Harg.
    + destruct (get_combined_dict_spec σ l_op_list l _ _ Hop Harg)
        as (d & σ' & Hrun & Hd & Hpres).
      exists σ'. split; [|done].
      unfold Store.bind at 1 2. cbn [Store.ret]. rewrite Hrun.
      unfold Store.bind, Store.dict_get. rewrite Hd.
      unfold get_fuser_method, get_or_assert. cbn [from_option id].
      by destruct (_ !! key).
    + set (l := fresh (dom σ)). set (σ1 := <[l := ∅]> σ).
      assert (σ !! l = None) as Hl by apply fresh_unallocated.
      assert (σ1 !! l_op_list = Some DEFAULT_OP_LIST_TO_FUSER_METHOD) as Hop1.
      { unfold σ1. rewrite lookup_insert_ne; [done|].
        intros E. by rewrite E, Hop in Hl. }
      assert (σ1 !! l = Some ∅) as Hl1 by apply lookup_insert_eq.
      destruct (get_combined_dict_spec σ1 l_op_list l _ _ Hop1 Hl1)
        as (d & σ' & Hrun & Hd & Hpres).
      exists σ'. split.
      * unfold Store.bind at 1 2. unfold Store.dict_new. fold l σ1.
        rewrite Hrun.
        unfold Store.bind, Store.dict_get. rewrite Hd.
        unfold get_fuser_method, get_or_assert.
        by destruct (_ !! key).
      * intros l0 m0 H0. apply Hpres. unfold σ1.
        rewrite lookup_insert_ne; [done|]. intros E. by rewrite <- E, Hl in H0.
  - unfold Store.get_fuser_method_new, Store.bind, Store.dict_get.
    destruct arg as [l|], mapping as [m|]; try done; cbn [Store.refers] in Harg.
    + rewrite Harg. unfold get_fuser_method_new, get_or_assert.
      by destruct (m !! key).
    + rewrite Hpat. unfold get_fuser_method_new, get_or_assert.
      by destruct (_ !! key).
Qed.

End StoreProperties.

(** ** Concrete calls, on the framework [torch_like] *)





Lemma reversed_table_equivalent_witness :
  exists rev,
    DEFAULT_PATTERN_TO_FUSER_METHOD !! key2 BatchNorm1d Conv1d = Some rev /\
    reversed_of (Fuser2 fuse_conv_bn) rev.
Proof.
  destruct reversed_table_equivalent as (_ & _ & _ & H4 & _).
  apply (H4 (key2 Conv1d BatchNorm1d) (Fuser2 fuse_conv_bn)).
  vm_compute. reflexivity.
Defined.

Lemma lookups_leave_dictionaries_unchanged_witness :
  (exists σ',
     Store.get_fuser_method 1%positive (key2 Linear ReLU) (Some 3%positive)
         sample_store
       = Some (get_fuser_method (key2 Linear ReLU)
                 (Some {[key2 Linear ReLU := Fuser2 fuse_linear_bn]}), σ') /\
     Store.preserved sample_store σ') /\
  Store.get_fuser_method_new 2%positive (key2 Linear ReLU) (Some 3%positive)
      sample_store
    = Some (get_fuser_method_new (key2 Linear ReLU)
              (Some {[key2 Linear ReLU := Fuser2 fuse_linear_bn]}),
            sample_store).
Proof.
  apply (lookups_leave_dictionaries_unchanged sample_store 1%positive
           2%positive (key2 Linear ReLU) (Some 3%positive)
           (Some {[key2 Linear ReLU := Fuser2 fuse_linear_bn]})).
  - reflexivity.
  - reflexivity.
  - reflexivity.
Defined.

Lemma qat_conv_bn_preconditions_witness :
  fuse_conv_bn true conv2d_train bn2d_narrow = Raise AssertionError /\
  fuse_conv_bn_relu true conv2d_train bn2d_narrow relu_train
    = Raise AssertionError.
Proof.
  apply (qat_conv_bn_preconditions conv2d_train bn2d_narrow relu_train
           20 10 true true);
    [reflexivity | reflexivity | reflexivity | reflexivity |].
  intros (_ & E & _). lia.
Defined.

(** Further calls, evaluated. *)

Example override_wins_on_collision :
  get_fuser_method (key2 Linear BatchNorm1d)
      (Some {[key2 Linear BatchNorm1d := Fuser2 fuse_convtranspose_bn]})
    = Ok (Fuser2 fuse_convtranspose_bn).
Proof. vm_compute. reflexivity. Qed.

Example default_entry_without_override :
  get_fuser_method (key2 Linear BatchNorm1d)
      (Some {[key2 ReLU ReLU := Fuser2 fuse_convtranspose_bn]})
    = Ok (Fuser2 fuse_linear_bn).
Proof. vm_compute. reflexivity. Qed.

Example post_training_conv_bn :
  fuse_conv_bn false (conv_module Conv2d false 20) bn2d_eval
    = Ok (conv_module Conv2d false 20).
Proof. reflexivity. Qed.

Example qat_conv_bn_relu :
  fuse_conv_bn_relu true conv2d_train bn2d_train relu_train
    = Ok (container ConvBnReLU2d [conv2d_train; bn2d_train; relu_train]).
Proof. reflexivity. Qed.

Example qat_conv_bn_eval_modules :
  fuse_conv_bn true (conv_module Conv2d false 20) bn2d_eval
    = Raise AssertionError.
Proof. reflexivity. Qed.

Example qat_convtranspose_unsupported_class :
  fuse_conv_bn true (conv_module ConvTranspose2d true 20) bn2d_train
    = Raise NotImplementedError.
Proof. reflexivity. Qed.

Example missing_attribute :
  fuse_conv_bn true linear_train bn1d_train = Raise AttributeError.
Proof. reflexivity. Qed.

(** * Further properties of the lookups *)

Section LookupComposition.
Context `{F : Framework}.

Lemma get_fuser_method_lookup (k : Pattern)
    (additional : option (gmap Pattern FuserMethod)) :
  get_fuser_method k additional =
    get_or_assert (get_combined_dict DEFAULT_OP_LIST_TO_FUSER_METHOD
                     (default ∅ additional)) k.
Proof. by destruct additional. Qed.

Lemma get_or_assert_Ok (d : gmap Pattern FuserMethod) (k : Pattern) (v : FuserMethod) :
  get_or_assert d k = Ok v <-> d !! k = Some v.
Proof.
  unfold get_or_assert. destruct (d !! k) as [w|]; split; intros H;
    try discriminate H; by injection H as ->.
Qed.

Lemma get_or_assert_absent (d : gmap Pattern FuserMethod) (k : Pattern) :
  d !! k = None -> get_or_assert d k = Raise AssertionError.
Proof. unfold get_or_assert. by intros ->. Qed.

Lemma key_lists_disjoint :
  Forall (fun k => k ∉ pattern_entries.*1) (op_list_entries.*1) /\
  Forall (fun k => k ∉ op_list_entries.*1) (pattern_entries.*1).
Proof. split; apply (bool_decide_unpack _); vm_compute; reflexivity. Qed.

(** X1.  The two default tables share no key: a key registered in the list
    table is absent from the pattern table, so [get_fuser_method_new] without
    a mapping raises on it, and a key registered in the pattern table makes
    [get_fuser_method] without an override raise. *)
Theorem default_tables_share_no_key (k : Pattern) :
  (is_Some (DEFAULT_OP_LIST_TO_FUSER_METHOD !! k) ->
   DEFAULT_PATTERN_TO_FUSER_METHOD !! k = None /\
   get_fuser_method_new k None = Raise AssertionError) /\
  (is_Some (DEFAULT_PATTERN_TO_FUSER_METHOD !! k) ->
   DEFAULT_OP_LIST_TO_FUSER_METHOD !! k = None /\
   get_fuser_method k None = Raise AssertionError).
Proof.
  destruct key_lists_disjoint as [Hop Hpat].
  rewrite Forall_forall in Hop, Hpat.
  split; intros [v Hk].
  - assert (DEFAULT_PATTERN_TO_FUSER_METHOD !! k = None) as Hnone.
    { apply not_elem_of_list_to_map, Hop.
      apply op_list_lookup in Hk. apply list_elem_of_fmap. by exists (k, v). }
    split; [done|]. unfold get_fuser_method_new. by apply get_or_assert_absent.
  - assert (DEFAULT_OP_LIST_TO_FUSER_METHOD !! k = None) as Hnone.
    { apply not_elem_of_list_to_map, Hpat.
      apply pattern_lookup in Hk. apply list_elem_of_fmap. by exists (k, v). }
    split; [done|]. rewrite get_fuser_method_lookup.
    apply get_or_assert_absent. rewrite lookup_combined_dict.
    cbn [from_option id]. by rewrite lookup_empty.
Qed.

(** X2.  An override mapping only adds or replaces entries of the list
    table: a key found without an override is found with every override, with
    the same function when the override has no entry for it, and the empty
    override is the same as none.  For [get_fuser_method_new] the empty
    mapping makes every lookup raise. *)
Theorem additional_mapping_only_adds (k : Pattern)
    (additional : gmap Pattern FuserMethod) :
  (forall f,
     get_fuser_method k None = Ok f ->
     exists g,
       get_fuser_method k (Some additional) = Ok g /\
       (additional !! k = None -> g = f)) /\
  get_fuser_method k (Some ∅) = get_fuser_method k None /\
  get_fuser_method_new k (Some ∅) = Raise AssertionError.
Proof.
  split; [|split].
  - intros f. rewrite !get_fuser_method_lookup, get_or_assert_Ok.
    rewrite lookup_combined_dict. cbn [from_option id].
    rewrite lookup_empty. intros Hf.
    destruct (additional !! k) as [g|] eqn:Hg.
    + exists g. split; [|done].
      apply get_or_assert_Ok. rewrite lookup_combined_dict. by rewrite Hg.
    + exists f. split; [|done].
      apply get_or_assert_Ok. rewrite lookup_combined_dict. by rewrite Hg.
  - by rewrite !get_fuser_method_lookup.
  - unfold get_fuser_method_new. apply get_or_assert_absent, lookup_empty.
Qed.

(** X3.  Registering a function for a key in the mapping handed to a lookup
    makes both lookups return that function for the key, whatever the default
    tables hold, and changes the result for no other key. *)
Theorem registered_entry_is_returned (k k' : Pattern) (v : FuserMethod)
    (mapping : gmap Pattern FuserMethod) :
  get_fuser_method k (Some (<[k := v]> mapping)) = Ok v /\
  get_fuser_method_new k (Some (<[k := v]> mapping)) = Ok v /\
  (k' <> k ->
   get_fuser_method k' (Some (<[k := v]> mapping))
     = get_fuser_method k' (Some mapping) /\
   get_fuser_method_new k' (Some (<[k := v]> mapping))
     = get_fuser_method_new k' (Some mapping)).
Proof.
  split; [|split].
  - rewrite get_fuser_method_lookup. apply get_or_assert_Ok.
    rewrite lookup_combined_dict. cbn [from_option id].
    by rewrite lookup_insert_eq.
  - unfold get_fuser_method_new. apply get_or_assert_Ok, lookup_insert_eq.
  - intros Hne. split.
    + rewrite !get_fuser_method_lookup. unfold get_or_assert.
      rewrite !lookup_combined_dict. cbn [from_option id].
      by rewrite lookup_insert_ne.
    + unfold get_fuser_method_new, get_or_assert.
      by rewrite lookup_insert_ne.
Qed.

(** X4.  Removing a key from the override mapping does not unregister it:
    [get_fuser_method] falls back to the list table, as without an override.
    For [get_fuser_method_new] the key removed from the mapping is not found,
    whatever the default pattern table holds. *)
Theorem removed_entry_falls_back (k : Pattern)
    (mapping : gmap Pattern FuserMethod) :
  get_fuser_method k (Some (delete k mapping)) = get_fuser_method k None /\
  get_fuser_method_new k (Some (delete k mapping)) = Raise AssertionError.
Proof.
  split.
  - rewrite !get_fuser_method_lookup. unfold get_or_assert.
    rewrite !lookup_combined_dict. cbn [from_option id].
    by rewrite lookup_delete_eq, lookup_empty.
  - unfold get_fuser_method_new. apply get_or_assert_absent, lookup_delete_eq.
Qed.

End LookupComposition.

(** * Further properties of the fusion functions *)

Section FuserChecks.
Context `{F : Framework}.

Lemma unsupported_class_maps (t : ModuleType) :
  t ∉ [Conv1d; Conv2d; Conv3d] ->
  fused_module_class_map t = None /\
  map_to_fused_module_train t = None /\
  map_to_fused_module_eval t = None.
Proof. intros Hnot. destruct t; try done; exfalso; apply Hnot; set_solver. Qed.

Lemma supported_class_maps (t cls : ModuleType) :
  fused_module_class_map t = Some cls \/
  map_to_fused_module_train t = Some cls \/
  map_to_fused_module_eval t = Some cls ->
  t ∈ [Conv1d; Conv2d; Conv3d].
Proof. intros [H|[H|H]]; destruct t; try discriminate H; set_solver. Qed.

(** X5.  A first module whose class is not [Conv1d], [Conv2d] or [Conv3d]
    makes [fuse_conv_bn_relu] raise [NotImplementedError] in both modes, and
    [fuse_conv_bn] in training mode, once the checks of the training flags
    and, in training mode, of the batch norm have passed; no routine of the
    framework is called. *)
Theorem unsupported_conv_class_not_implemented (conv bn relu : NNModule) :
  mtype conv ∉ [Conv1d; Conv2d; Conv3d] ->
  training conv = training bn ->
  training bn = training relu ->
  fuse_conv_bn_relu false conv bn relu = Raise NotImplementedError /\
  (qat_ready conv bn ->
   fuse_conv_bn true conv bn = Raise NotImplementedError /\
   fuse_conv_bn_relu true conv bn relu = Raise NotImplementedError).
Proof.
  intros Hclass Hsame Hsame'.
  destruct (unsupported_class_maps _ Hclass) as (Hmap & Htrain & Heval).
  split.
  - rewrite fuse_conv_bn_relu_agree by auto. by rewrite Heval.
  - intros Hready.
    rewrite fuse_conv_bn_agree, fuse_conv_bn_relu_agree by auto.
    by rewrite Hmap, Htrain.
Qed.

(** X6.  What a returned module implies.  [fuse_conv_bn] returns only on
    equal training flags, and in training mode only for a convolution class in
    training mode; [fuse_conv_bn_relu] returns only on three equal flags and
    a convolution class, in both modes; [fuse_linear_bn] and
    [fuse_convtranspose_bn] return only in post-training mode, on equal
    flags. *)
Theorem fusion_success_conditions (is_qat : bool) (m1 m2 m3 m : NNModule) :
  (fuse_conv_bn is_qat m1 m2 = Ok m ->
   training m1 = training m2 /\
   (is_qat = true ->
    training m1 = true /\ mtype m1 ∈ [Conv1d; Conv2d; Conv3d])) /\
  (fuse_conv_bn_relu is_qat m1 m2 m3 = Ok m ->
   training m1 = training m2 /\ training m2 = training m3 /\
   mtype m1 ∈ [Conv1d; Conv2d; Conv3d]) /\
  (fuse_linear_bn is_qat m1 m2 = Ok m ->
   is_qat = false /\ training m1 = training m2) /\
  (fuse_convtranspose_bn is_qat m1 m2 = Ok m ->
   is_qat = false /\ training m1 = training m2).
Proof.
  split; [|split; [|split]].
  - unfold fuse_conv_bn, getattr. intros Hm.
    destruct (eqb (training m1) (training m2)) eqn:E; [|discriminate Hm].
    apply eqb_prop in E. split; [done|]. intros ->.
    destruct (training m1); [|discriminate Hm]. split; [done|].
    cbn [py_assert mbind result_bind] in Hm.
    destruct (num_features m2); [|discriminate Hm].
    destruct (out_channels m1); [|discriminate Hm].
    cbn [mbind result_bind] in Hm.
    case_bool_decide; [|discriminate Hm].
    cbn [py_assert mbind result_bind] in Hm.
    destruct (affine m2) as [[]|]; try discriminate Hm.
    destruct (track_running_stats m2) as [[]|]; try discriminate Hm.
    cbn [py_assert mbind result_bind] in Hm.
    destruct (fused_module_class_map (mtype m1)) as [cls|] eqn:Hc;
      [|discriminate Hm].
    apply (supported_class_maps _ cls). by left.
  - unfold fuse_conv_bn_relu, getattr. intros Hm.
    destruct (eqb (training m1) (training m2)) eqn:E1; [|discriminate Hm].
    destruct (eqb (training m2) (training m3)) eqn:E2; [|discriminate Hm].
    apply eqb_prop in E1, E2. split; [done|]. split; [done|].
    cbn [andb py_assert mbind result_bind] in Hm.
    destruct is_qat.
    + destruct (training m1); [|discriminate Hm].
      cbn [py_assert mbind result_bind] in Hm.
      destruct (num_features m2); [|discriminate Hm].
      destruct (out_channels m1); [|discriminate Hm].
      cbn [mbind result_bind] in Hm.
      case_bool_decide; [|discriminate Hm].
      cbn [py_assert mbind result_bind] in Hm.
      destruct (affine m2) as [[]|]; try discriminate Hm.
      destruct (track_running_stats m2) as [[]|]; try discriminate Hm.
      cbn [py_assert mbind result_bind] in Hm.
      destruct (map_to_fused_module_train (mtype m1)) as [cls|] eqn:Hc;
        [|discriminate Hm].
      apply (supported_class_maps _ cls). auto.
    + destruct (map_to_fused_module_eval (mtype m1)) as [cls|] eqn:Hc;
        [|discriminate Hm].
      apply (supported_class_maps _ cls). auto.
  - unfold fuse_linear_bn. intros Hm.
    destruct (eqb (training m1) (training m2)) eqn:E; [|discriminate Hm].
    apply eqb_prop in E. destruct is_qat; [|done].
    by destruct (training m1).
  - unfold fuse_convtranspose_bn. intros Hm.
    destruct (eqb (training m1) (training m2)) eqn:E; [|discriminate Hm].
    apply eqb_prop in E. destruct is_qat; [|done].
    by destruct (training m1).
Qed.

(** X7.  The order of the checks in training mode.  Differing training flags
    or a first module in evaluation mode give [AssertionError] whatever
    attributes the modules have; on modules in training mode an attribute that
    is missing when it is read gives [AttributeError]: [bn.num_features], then
    [conv.out_channels], then, the two being equal, [bn.affine], then, it
    being true, [bn.track_running_stats]. *)
Theorem qat_checks_precede_attributes (conv bn relu : NNModule) :
  (training conv <> training bn \/ training conv = false ->
   fuse_conv_bn true conv bn = Raise AssertionError /\
   fuse_conv_bn_relu true conv bn relu = Raise AssertionError) /\
  (training conv = true -> training bn = true -> training relu = true ->
   num_features bn = None \/ out_channels conv = None \/
   (num_features bn = out_channels conv /\
    (affine bn = None \/
     (affine bn = Some true /\ track_running_stats bn = None))) ->
   fuse_conv_bn true conv bn = Raise AttributeError /\
   fuse_conv_bn_relu true conv bn relu = Raise AttributeError).
Proof.
  split.
  - unfold fuse_conv_bn, fuse_conv_bn_relu.
    intros [Hne|Hoff].
    + apply eqb_training_false in Hne. by rewrite Hne.
    + rewrite Hoff.
      by destruct (eqb false (training bn)), (eqb (training bn) (training relu)).
  - intros Hc Hb Hr Hmissing.
    unfold fuse_conv_bn, fuse_conv_bn_relu, getattr.
    rewrite Hc, Hb, Hr. cbn [eqb andb py_assert mbind result_bind].
    destruct Hmissing as [->|[Hoc|[Heq Hrest]]].
    + done.
    + rewrite Hoc. by destruct (num_features bn).
    + rewrite Heq. destruct (out_channels conv) as [n|]; [|done].
      cbn [mbind result_bind]. rewrite bool_decide_eq_true_2 by done.
      cbn [py_assert mbind result_bind].
      destruct Hrest as [->|[-> ->]]; done.
Qed.

End FuserChecks.

(** X8.  The two modes use different routines of the framework.  In training
    mode the four fusion functions never call a folding routine: two
    frameworks with the same classes give the same results.  In post-training
    mode [fuse_conv_bn], [fuse_linear_bn] and [fuse_convtranspose_bn] build no
    class of [torch.nn.intrinsic]: two frameworks with the same folding
    routines give the same results. *)
Theorem modes_use_separate_routines (F1 F2 : Framework)
    (m1 m2 m3 : NNModule) :
  ((forall cls ms, @instantiate F1 cls ms = @instantiate F2 cls ms) ->
   @fuse_conv_bn F1 true m1 m2 = @fuse_conv_bn F2 true m1 m2 /\
   @fuse_conv_bn_relu F1 true m1 m2 m3 = @fuse_conv_bn_relu F2 true m1 m2 m3 /\
   @fuse_linear_bn F1 true m1 m2 = @fuse_linear_bn F2 true m1 m2 /\
   @fuse_convtranspose_bn F1 true m1 m2 = @fuse_convtranspose_bn F2 true m1 m2) /\
  ((forall conv bn transpose,
      @fuse_conv_bn_eval F1 conv bn transpose
        = @fuse_conv_bn_eval F2 conv bn transpose) ->
   (forall linear bn,
      @fuse_linear_bn_eval F1 linear bn = @fuse_linear_bn_eval F2 linear bn) ->
   @fuse_conv_bn F1 false m1 m2 = @fuse_conv_bn F2 false m1 m2 /\
   @fuse_linear_bn F1 false m1 m2 = @fuse_linear_bn F2 false m1 m2 /\
   @fuse_convtranspose_bn F1 false m1 m2
     = @fuse_convtranspose_bn F2 false m1 m2).
Proof.
  split.
  - intros Hclasses.
    unfold fuse_conv_bn, fuse_conv_bn_relu, fuse_linear_bn,
      fuse_convtranspose_bn.
    repeat split; try reflexivity.
    + destruct (fused_module_class_map (mtype m1));
        [by rewrite Hclasses|reflexivity].
    + destruct (map_to_fused_module_train (mtype m1));
        [by rewrite Hclasses|reflexivity].
  - intros Hconv Hlinear.
    unfold fuse_conv_bn, fuse_linear_bn, fuse_convtranspose_bn.
    by rewrite !Hconv, Hlinear.
Qed.

(** * Further properties of the lookups on a store *)

Section StoreComposition.
Context `{F : Framework}.

Implicit Types σ : gmap Store.loc (gmap Pattern FuserMethod).

Lemma get_combined_dict_run σ d1 d2 m1 m2 :
  σ !! d1 = Some m1 ->
  σ !! d2 = Some m2 ->
  Store.get_combined_dict d1 d2 σ
    = Some (Ok (fresh (dom σ)),
            <[fresh (dom σ) := get_combined_dict m1 m2]> σ).
Proof.
  intros H1 H2. pose proof (fresh_unallocated σ) as Hfresh.
  assert (fresh (dom σ) <> d2) as Hne by (intros E; by rewrite E, H2 in Hfresh).
  unfold Store.get_combined_dict, Store.bind, Store.dict_copy,
    Store.dict_update, Store.ret.
  rewrite H1. rewrite lookup_insert_eq, lookup_insert_ne, H2 by done.
  by rewrite insert_insert_eq.
Qed.

Lemma preserved_fresh σ m : Store.preserved σ (<[fresh (dom σ) := m]> σ).
Proof.
  intros l0 m0 H0. rewrite lookup_insert_ne; [done|].
  intros E. by rewrite <- E, fresh_unallocated in H0.
Qed.

Lemma preserved_trans σ1 σ2 σ3 :
  Store.preserved σ1 σ2 -> Store.preserved σ2 σ3 -> Store.preserved σ1 σ3.
Proof. intros H12 H23 l m Hl. by apply H23, H12. Qed.

Lemma refers_preserved σ σ' arg mapping :
  Store.preserved σ σ' -> Store.refers σ arg mapping -> Store.refers σ' arg mapping.
Proof. intros Hp. destruct arg, mapping; try done. apply Hp. Qed.

(** The run of [get_fuser_method] on any store in which its references are
    allocated. *)
Lemma get_fuser_method_run σ l_op_list key arg mapping d_op :
  σ !! l_op_list = Some d_op ->
  Store.refers σ arg mapping ->
  exists σ',
    Store.get_fuser_method l_op_list key arg σ
      = Some (get_or_assert (get_combined_dict d_op (default ∅ mapping)) key, σ') /\
    Store.preserved σ σ' /\
    size σ' = (size σ + match arg with Some _ => 1 | None => 2 end)%nat.
Proof.
  intros Hop Harg. unfold Store.get_fuser_method.
  destruct arg as [l|], mapping as [m|]; try done; cbn [Store.refers] in Harg.
  - exists (<[fresh (dom σ) := get_combined_dict d_op m]> σ).
    split; [|split].
    + unfold Store.bind at 1 2. cbn [Store.ret].
      rewrite (get_combined_dict_run σ l_op_list l d_op m) by done.
      unfold Store.bind, Store.dict_get. rewrite lookup_insert_eq.
      cbn [from_option id]. unfold get_or_assert.
      by destruct (_ !! key).
    + apply preserved_fresh.
    + rewrite map_size_insert_None by apply fresh_unallocated. lia.
  - set (l := fresh (dom σ)). set (σ1 := <[l := ∅]> σ).
    assert (σ !! l = None) as Hl by apply fresh_unallocated.
    assert (σ1 !! l_op_list = Some d_op) as Hop1.
    { unfold σ1. rewrite lookup_insert_ne; [done|].
      intros E. by rewrite E, Hop in Hl. }
    assert (σ1 !! l = Some ∅) as Hl1 by apply lookup_insert_eq.
    exists (<[fresh (dom σ1) := get_combined_dict d_op ∅]> σ1).
    split; [|split].
    + unfold Store.bind at 1 2. unfold Store.dict_new. fold l σ1.
      rewrite (get_combined_dict_run σ1 l_op_list l d_op ∅) by done.
      unfold Store.bind, Store.dict_get. rewrite lookup_insert_eq.
      cbn [from_option id]. unfold get_or_assert.
      by destruct (_ !! key).
    + apply (preserved_trans _ σ1); apply preserved_fresh.
    + rewrite map_size_insert_None by apply fresh_unallocated.
      unfold σ1. rewrite map_size_insert_None by done. lia.
Qed.

Lemma get_fuser_method_new_run σ l_pattern key arg mapping d_pat :
  σ !! l_pattern = Some d_pat ->
  Store.refers σ arg mapping ->
  Store.get_fuser_method_new l_pattern key arg σ
    = Some (get_or_assert (default d_pat mapping) key, σ).
Proof.
  intros Hpat Harg.
  unfold Store.get_fuser_method_new, Store.bind, Store.dict_get.
  destruct arg as [l|], mapping as [m|]; try done; cbn [Store.refers] in Harg.
  - rewrite Harg. cbn [from_option id]. unfold get_or_assert.
    by destruct (m !! key).
  - rewrite Hpat. cbn [from_option id]. unfold get_or_assert.
    by destruct (d_pat !! key).
Qed.

(** X9.  [get_fuser_method] reads the dictionary the module-level name refers
    to when it is called, whatever it holds then, merges the caller's mapping
    over a copy of it, and leaves behind exactly one new dictionary when a
    mapping is passed and two when none is; [get_fuser_method_new] reads the
    caller's mapping, or the dictionary of the module-level name, and
    allocates nothing. *)
Theorem lookups_read_current_tables σ l_op_list l_pattern key arg mapping
    d_op d_pat :
  σ !! l_op_list = Some d_op ->
  σ !! l_pattern = Some d_pat ->
  Store.refers σ arg mapping ->
  (exists σ',
     Store.get_fuser_method l_op_list key arg σ
       = Some (get_or_assert (get_combined_dict d_op (default ∅ mapping)) key,
               σ') /\
     Store.preserved σ σ' /\
     size σ' = (size σ + match arg with Some _ => 1 | None => 2 end)%nat) /\
  Store.get_fuser_method_new l_pattern key arg σ
    = Some (get_or_assert (default d_pat mapping) key, σ).
Proof.
  intros Hop Hpat Harg. split.
  - by apply get_fuser_method_run.
  - by apply get_fuser_method_new_run.
Qed.

(** X10.  Aliasing: when the caller passes the list table itself as the
    override mapping, [get_fuser_method] returns what it returns without an
    override, and the table keeps its contents. *)
Theorem table_passed_as_its_own_override σ l_op_list key d_op :
  σ !! l_op_list = Some d_op ->
  exists σ1 σ2,
    Store.get_fuser_method l_op_list key (Some l_op_list) σ
      = Some (get_or_assert d_op key, σ1) /\
    Store.get_fuser_method l_op_list key None σ
      = Some (get_or_assert d_op key, σ2) /\
    σ1 !! l_op_list = Some d_op.
Proof.
  intros Hop.
  destruct (get_fuser_method_run σ l_op_list key (Some l_op_list) (Some d_op)
              d_op Hop Hop) as (σ1 & Hrun1 & Hpres1 & _).
  destruct (get_fuser_method_run σ l_op_list key None None d_op Hop I)
    as (σ2 & Hrun2 & _ & _).
  exists σ1, σ2. cbn [from_option id] in Hrun1, Hrun2.
  unfold get_combined_dict in Hrun1, Hrun2.
  rewrite (idemp_L (∪)) in Hrun1. rewrite (left_id_L ∅ (∪)) in Hrun2.
  split; [done|]. split; [done|]. by apply Hpres1.
Qed.

(** X11.  A lookup changes the result of no later lookup: after a call of
    [get_fuser_method], either lookup, on any key and with any mapping that
    existed before that call, returns what it would have returned before
    it. *)
Theorem lookup_leaves_later_lookups σ σ' l_op_list l_pattern
    key arg mapping key' arg' mapping' d_op d_pat r :
  σ !! l_op_list = Some d_op ->
  σ !! l_pattern = Some d_pat ->
  Store.refers σ arg mapping ->
  Store.refers σ arg' mapping' ->
  Store.get_fuser_method l_op_list key arg σ = Some (r, σ') ->
  fst <$> Store.get_fuser_method l_op_list key' arg' σ'
    = fst <$> Store.get_fuser_method l_op_list key' arg' σ /\
  fst <$> Store.get_fuser_method_new l_pattern key' arg' σ'
    = fst <$> Store.get_fuser_method_new l_pattern key' arg' σ.
Proof.
  intros Hop Hpat Harg Harg' Hrun.
  destruct (get_fuser_method_run σ l_op_list key arg mapping d_op Hop Harg)
    as (σ0 & Hrun0 & Hpres & _).
  rewrite Hrun in Hrun0. injection Hrun0 as _ <-.
  pose proof (refers_preserved _ _ _ _ Hpres Harg') as Harg''.
  split.
  - destruct (get_fuser_method_run σ l_op_list key' arg' mapping' d_op Hop Harg')
      as (σa & -> & _).
    destruct (get_fuser_method_run σ' l_op_list key' arg' mapping' d_op
                (Hpres _ _ Hop) Harg'') as (σb & -> & _).
    reflexivity.
  - rewrite (get_fuser_method_new_run σ l_pattern key' arg' mapping' d_pat)
      by done.
    rewrite (get_fuser_method_new_run σ' l_pattern key' arg' mapping' d_pat)
      by (done || by apply Hpres).
    reflexivity.
Qed.

End StoreComposition.

(** * The dictionary literals *)

Section TableLiterals.
Context `{F : Framework}.

(** X12.  No key is written twice in either dictionary literal, so no entry
    is shadowed by a later one: each table has sixteen keys, and each entry
    written is the one a lookup of its key finds. *)
Theorem written_entries_are_found :
  size DEFAULT_OP_LIST_TO_FUSER_METHOD = 16%nat /\
  size DEFAULT_PATTERN_TO_FUSER_METHOD = 16%nat /\
  (forall k v,
     (k, v) ∈ op_list_entries ->
     DEFAULT_OP_LIST_TO_FUSER_METHOD !! k = Some v) /\
  (forall k v,
     (k, v) ∈ pattern_entries ->
     DEFAULT_PATTERN_TO_FUSER_METHOD !! k = Some v).
Proof.
  split; [|split; [|split]].
  - unfold DEFAULT_OP_LIST_TO_FUSER_METHOD.
    by rewrite map_size_list_to_map by apply op_list_keys_NoDup.
  - unfold DEFAULT_PATTERN_TO_FUSER_METHOD.
    by rewrite map_size_list_to_map by apply pattern_keys_NoDup.
  - intros k v. apply op_list_lookup.
  - intros k v. apply pattern_lookup.
Qed.

End TableLiterals.

(** * Concrete instances of the further properties *)

Lemma default_tables_share_no_key_witness :
  DEFAULT_PATTERN_TO_FUSER_METHOD !! key2 Conv1d BatchNorm1d = None /\
  get_fuser_method_new (key2 Conv1d BatchNorm1d) None = Raise AssertionError.
Proof.
  apply (proj1 (default_tables_share_no_key (key2 Conv1d BatchNorm1d))).
  eexists. vm_compute. reflexivity.
Defined.

Lemma additional_mapping_only_adds_witness :
  exists g,
    get_fuser_method (key2 Linear ReLU)
        (Some {[key2 ReLU ReLU := Fuser2 fuse_linear_bn]}) = Ok g /\
    (({[key2 ReLU ReLU := Fuser2 fuse_linear_bn]} : gmap Pattern FuserMethod)
       !! key2 Linear ReLU = None ->
     g = Fuser2 (sequential_wrapper2 (nni LinearReLU))).
Proof.
  apply (proj1 (additional_mapping_only_adds (key2 Linear ReLU)
                  {[key2 ReLU ReLU := Fuser2 fuse_linear_bn]})).
  vm_compute. reflexivity.
Defined.

Lemma registered_entry_is_returned_witness :
  get_fuser_method (key2 Conv1d ReLU)
      (Some (<[key2 Linear ReLU := Fuser2 fuse_linear_bn]> ∅))
    = get_fuser_method (key2 Conv1d ReLU) (Some ∅) /\
  get_fuser_method_new (key2 Conv1d ReLU)
      (Some (<[key2 Linear ReLU := Fuser2 fuse_linear_bn]> ∅))
    = get_fuser_method_new (key2 Conv1d ReLU) (Some ∅).
Proof.
  destruct (registered_entry_is_returned (key2 Linear ReLU) (key2 Conv1d ReLU)
              (Fuser2 fuse_linear_bn) ∅) as (_ & _ & H).
  apply H. discriminate.
Defined.

Lemma unsupported_conv_class_not_implemented_witness :
  fuse_conv_bn_relu false convtranspose2d_train bn2d_train relu_train
    = Raise NotImplementedError /\
  fuse_conv_bn true convtranspose2d_train bn2d_train
    = Raise NotImplementedError.
Proof.
  destruct (unsupported_conv_class_not_implemented convtranspose2d_train
              bn2d_train relu_train) as [Heval Hqat].
  - apply (bool_decide_unpack _). vm_compute. reflexivity.
  - reflexivity.
  - reflexivity.
  - split; [exact Heval|]. apply Hqat.
    split; [reflexivity|]. split; [by exists 20|]. split; reflexivity.
Defined.

Lemma fusion_success_conditions_witness :
  training conv2d_train = training bn2d_train /\
  training bn2d_train = training relu_train /\
  mtype conv2d_train ∈ [Conv1d; Conv2d; Conv3d].
Proof.
  apply (proj1 (proj2 (fusion_success_conditions true conv2d_train bn2d_train
                         relu_train
                         (container ConvBnReLU2d
                            [conv2d_train; bn2d_train; relu_train])))).
  reflexivity.
Defined.

Lemma qat_checks_precede_attributes_witness :
  fuse_conv_bn true (conv_module Conv2d false 20) bare_train
    = Raise AssertionError /\
  fuse_conv_bn true bare_train bn1d_train = Raise AttributeError.
Proof.
  split.
  - apply (proj1 (qat_checks_precede_attributes (conv_module Conv2d false 20)
                    bare_train relu_train)).
    left. discriminate.
  - apply (proj2 (qat_checks_precede_attributes bare_train bn1d_train
                    relu_train)); try reflexivity.
    right. left. reflexivity.
Defined.

Lemma modes_use_separate_routines_witness :
  @fuse_conv_bn torch_like true conv2d_train bn2d_train
    = @fuse_conv_bn without_folding true conv2d_train bn2d_train /\
  @fuse_conv_bn_relu torch_like true conv2d_train bn2d_train relu_train
    = @fuse_conv_bn_relu without_folding true conv2d_train bn2d_train relu_train.
Proof.
  destruct (modes_use_separate_routines torch_like without_folding
              conv2d_train bn2d_train relu_train) as [Hqat _].
  destruct Hqat as (H1 & H2 & _); [reflexivity|]. by split.
Defined.

Lemma lookups_read_current_tables_witness :
  (exists σ',
     Store.get_fuser_method 1%positive (key2 Linear ReLU) None small_store
       = Some (get_or_assert
                 (get_combined_dict
                    {[key2 Linear ReLU := Fuser2 fuse_linear_bn]} ∅)
                 (key2 Linear ReLU), σ') /\
     Store.preserved small_store σ' /\
     size σ' = (size small_store + 2)%nat) /\
  Store.get_fuser_method_new 2%positive (key2 Linear ReLU) None small_store
    = Some (get_or_assert ∅ (key2 Linear ReLU), small_store).
Proof.
  apply (lookups_read_current_tables small_store 1%positive 2%positive
           (key2 Linear ReLU) None None
           {[key2 Linear ReLU := Fuser2 fuse_linear_bn]} ∅);
    reflexivity.
Defined.

Lemma table_passed_as_its_own_override_witness :
  exists σ1 σ2,
    Store.get_fuser_method 1%positive (key2 Linear ReLU) (Some 1%positive)
        small_store
      = Some (get_or_assert {[key2 Linear ReLU := Fuser2 fuse_linear_bn]}
                (key2 Linear ReLU), σ1) /\
    Store.get_fuser_method 1%positive (key2 Linear ReLU) None small_store
      = Some (get_or_assert {[key2 Linear ReLU := Fuser2 fuse_linear_bn]}
                (key2 Linear ReLU), σ2) /\
    σ1 !! 1%positive = Some {[key2 Linear ReLU := Fuser2 fuse_linear_bn]}.
Proof.
  apply (table_passed_as_its_own_override small_store 1%positive
           (key2 Linear ReLU)).
  reflexivity.
Defined.

Lemma lookup_leaves_later_lookups_witness :
  exists r σ',
    Store.get_fuser_method 1%positive (key2 Linear ReLU) None small_store
      = Some (r, σ') /\
    fst <$> Store.get_fuser_method 1%positive (key2 Conv1d ReLU)
              (Some 2%positive) σ'
      = fst <$> Store.get_fuser_method 1%positive (key2 Conv1d ReLU)
                  (Some 2%positive) small_store.
Proof.
  destruct (get_fuser_method_run small_store 1%positive (key2 Linear ReLU)
              None None {[key2 Linear ReLU := Fuser2 fuse_linear_bn]}
              eq_refl I) as (σ' & Hrun & _).
  eexists _, σ'. split; [exact Hrun|].
  apply (lookup_leaves_later_lookups small_store σ' 1%positive 2%positive
           (key2 Linear ReLU) None None (key2 Conv1d ReLU) (Some 2%positive)
           (Some ∅) {[key2 Linear ReLU := Fuser2 fuse_linear_bn]} ∅
           (get_or_assert
              (get_combined_dict {[key2 Linear ReLU := Fuser2 fuse_linear_bn]}
                 (default ∅ None))
              (key2 Linear ReLU)));
    [reflexivity | reflexivity | reflexivity | reflexivity | exact Hrun].
Defined.

Lemma written_entries_are_found_witness :
  DEFAULT_OP_LIST_TO_FUSER_METHOD !! key2 Linear BatchNorm1d
    = Some (Fuser2 fuse_linear_bn).
Proof.
  destruct written_entries_are_found as (_ & _ & H & _).
  apply H. unfold op_list_entries. find_entry.
Defined.
